(** * Your-Program-is-Terminated: the termination monitor and its mailer

    A shallow embedding of [your_program_is_terminated.py]: the class
    [SimpleEmailServer] (the notifier) and the context manager
    [termination_monitor] (the guard), with the parts of the Python run time
    they touch: the environment, the table of signal handlers, the socket
    factory of the [socket] module, standard output and the SMTP transport.

    Effects are threaded through an explicit [World]; a computation returns,
    raises a Python exception, or stops because the operating system killed
    the process. *)

From Stdlib Require Import String Ascii List ZArith Bool Lia DecimalString.
From stdpp Require Import base option gmap strings.

Import ListNotations.
Local Open Scope Z_scope.

(** ** Text *)

Definition nl : string := String (ascii_of_nat 10) EmptyString.

(** [f"{n}"] for a Python int. *)
Definition str_int (n : Z) : string := NilZero.string_of_int (Z.to_int n).

(** [needle in hay] on Python strings. *)
Fixpoint contains (needle hay : string) : bool :=
  String.prefix needle hay ||
  match hay with
  | EmptyString => false
  | String _ rest => contains needle rest
  end.

(** Truth value of an [Optional[str]]: [None] and the empty string are false. *)
Definition truthy_str (v : option string) : bool :=
  match v with
  | Some (String _ _) => true
  | _ => false
  end.

(** Truth value of an [Optional[int]]: [None] and [0] are false. *)
Definition truthy_int (v : option Z) : bool :=
  match v with
  | Some n => negb (n =? 0)
  | None => false
  end.

(** ** Exceptions *)

(** Classes below [Exception]: what [except Exception] catches. *)
Inductive ExceptionClass :=
| ValueError
| TypeError
| RuntimeError
| OSError
| SMTPException
| UserException (qualname : string).

(** Classes below [BaseException]. Three builtin classes derive from
    [BaseException] directly and are not exceptions in the sense of
    [except Exception]. *)
Inductive ExcClass :=
| KeyboardInterrupt
| SystemExit
| GeneratorExit
| Exception (c : ExceptionClass).

(** The name [traceback] prints for a class: the qualified name, without the
    module for builtins. *)
Definition class_name (c : ExcClass) : string :=
  match c with
  | KeyboardInterrupt => "KeyboardInterrupt"
  | SystemExit => "SystemExit"
  | GeneratorExit => "GeneratorExit"
  | Exception ValueError => "ValueError"
  | Exception TypeError => "TypeError"
  | Exception RuntimeError => "RuntimeError"
  | Exception OSError => "OSError"
  | Exception SMTPException => "smtplib.SMTPException"
  | Exception (UserException q) => q
  end.

(** An exception object: its class, [str(e)], and what the interpreter
    attached when it was raised, already formatted: the chained causes
    ([__cause__], [__context__]) and the stack entries of [__traceback__]. *)
Record BaseException := {
  exc_type : ExcClass;
  exc_str : string;
  exc_chain : string;
  exc_frames : string }.

(** ** Signals *)

Inductive Signals :=
| SIGHUP | SIGINT | SIGQUIT | SIGUSR1 | SIGUSR2 | SIGALRM | SIGTERM.

#[global] Instance Signals_eq_dec : EqDecision Signals.
Proof. solve_decision. Defined.

(** [signal.Signals(signum).name] *)
Definition Signals_name (s : Signals) : string :=
  match s with
  | SIGHUP => "SIGHUP"
  | SIGINT => "SIGINT"
  | SIGQUIT => "SIGQUIT"
  | SIGUSR1 => "SIGUSR1"
  | SIGUSR2 => "SIGUSR2"
  | SIGALRM => "SIGALRM"
  | SIGTERM => "SIGTERM"
  end.

(** What [signal.signal] installs and returns: the two special values, the
    interpreter's own handler for SIGINT, the bound method
    [self._handle_signal] of the monitor, or another Python callable. These
    are the handlers a Python program installs; a handler that C code
    installed behind the interpreter's back, which [signal.signal] reports
    as [None], is outside this model. *)
Inductive Handler :=
| SIG_DFL
| SIG_IGN
| default_int_handler
| monitor_handle_signal
| PyCallable (id : nat).

(** ** The notifier's transport *)

Inductive ProxyType := PROXY_TYPE_HTTP | PROXY_TYPE_SOCKS5.

(** The dictionary [_parse_proxy] builds. *)
Record ProxyInfo := {
  proxy_type : ProxyType;
  proxy_host : option string;
  proxy_port : Z }.

(** The class bound to [socket.socket]. *)
Inductive SocketClass := stock_socket | socks_socksocket.

(** The message [send] assembles before it connects. *)
Record MIMEMultipart := {
  msg_From : string;
  msg_To : string;
  msg_Subject : string;
  msg_parts : list string }.

(** The calls [send] makes into [smtplib]; each one may fail. *)
Inductive SmtpOp :=
| SMTP_SSL (host : string) (port : Z)
| SMTP (host : string) (port : Z)
| starttls
| login (user password : string)
| sendmail (from_addr to_addr : string) (msg : MIMEMultipart)
| quit.

(** ** Observable effects, in the order they happen *)

Inductive Event :=
| E_print (line : string)
| E_signal (sig : Signals) (h : Handler)
| E_setdefaultproxy (p : ProxyInfo)
| E_socket_socket (c : SocketClass)
| E_send (recipient subject body : string)
| E_smtp (op : SmtpOp).

(** ** The world *)

(** What the interpreter attaches to an exception raised at the current
    point of the program. *)
Record RaiseSite := {
  site_chain : string;
  site_frames : string }.

(** [smtp_fails] is the network: whether a call into [smtplib] fails, given
    everything that happened before it. A failure of the transport (name
    resolution, refused connection, TLS, authentication, protocol) is an
    [OSError] or another class below [Exception]. *)
Record World := {
  environ : gmap string string;
  handlers : Signals -> Handler;
  socket_socket : SocketClass;
  socks_defaultproxy : option ProxyInfo;
  hostname : string;
  clock : string;
  raise_site : RaiseSite;
  smtp_fails : list Event -> SmtpOp -> option (ExceptionClass * string);
  trace : list Event }.

Definition emit (e : Event) (w : World) : World :=
  {| environ := environ w; handlers := handlers w;
     socket_socket := socket_socket w;
     socks_defaultproxy := socks_defaultproxy w;
     hostname := hostname w; clock := clock w; raise_site := raise_site w;
     smtp_fails := smtp_fails w; trace := trace w ++ [e] |}.

Definition set_handler (s : Signals) (h : Handler) (w : World) : World :=
  {| environ := environ w;
     handlers := fun s' => if decide (s' = s) then h else handlers w s';
     socket_socket := socket_socket w;
     socks_defaultproxy := socks_defaultproxy w;
     hostname := hostname w; clock := clock w; raise_site := raise_site w;
     smtp_fails := smtp_fails w; trace := trace w |}.

Definition set_socket_socket (c : SocketClass) (w : World) : World :=
  {| environ := environ w; handlers := handlers w;
     socket_socket := c;
     socks_defaultproxy := socks_defaultproxy w;
     hostname := hostname w; clock := clock w; raise_site := raise_site w;
     smtp_fails := smtp_fails w; trace := trace w |}.

Definition set_defaultproxy (p : ProxyInfo) (w : World) : World :=
  {| environ := environ w; handlers := handlers w;
     socket_socket := socket_socket w;
     socks_defaultproxy := Some p;
     hostname := hostname w; clock := clock w; raise_site := raise_site w;
     smtp_fails := smtp_fails w; trace := trace w |}.

(** ** Computations *)

Inductive Result (A : Type) :=
| Return (a : A)
| Raise (e : BaseException)
| Killed (s : Signals).

Arguments Return {A} a.
Arguments Raise {A} e.
Arguments Killed {A} s.

Definition M (A : Type) : Type := World -> Result A * World.

Definition ret {A} (a : A) : M A := fun w => (Return a, w).

Definition bind {A B} (c : M A) (k : A -> M B) : M B :=
  fun w =>
    match c w with
    | (Return a, w') => k a w'
    | (Raise e, w') => (Raise e, w')
    | (Killed s, w') => (Killed s, w')
    end.

Declare Scope py_scope.
Delimit Scope py_scope with py.
Notation "x <- c ;; k" := (bind c (fun x => k))
  (at level 100, c at next level, right associativity) : py_scope.
Notation "c ;; k" := (bind c (fun _ => k))
  (at level 100, right associativity) : py_scope.
Local Open Scope py_scope.

Definition get {A} (f : World -> A) : M A := fun w => (Return (f w), w).

Definition modify (f : World -> World) : M unit := fun w => (Return tt, f w).

(** [raise cls(msg)] at the current point of the program. *)
Definition raise_ {A} (cls : ExcClass) (msg : string) : M A :=
  fun w =>
    (Raise {| exc_type := cls; exc_str := msg;
              exc_chain := site_chain (raise_site w);
              exc_frames := site_frames (raise_site w) |}, w).

(** [try: body / except Exception as e: handler(e)] *)
Definition try_except_Exception {A} (body : M A) (handler : BaseException -> M A) : M A :=
  fun w =>
    match body w with
    | (Raise e, w') =>
        match exc_type e with
        | Exception _ => handler e w'
        | _ => (Raise e, w')
        end
    | r => r
    end.

Definition print (line : string) : M unit := modify (emit (E_print line)).

Definition fmap_M {A B} (f : A -> B) (c : M A) : M B :=
  x <- c ;; ret (f x).
Notation "f <$$> c" := (fmap_M f c) (at level 61, left associativity) : py_scope.

(** [signal.signal(sig, h)]: installs [h] and returns the handler it
    replaces. *)
Definition signal_signal (sig : Signals) (h : Handler) : M Handler :=
  fun w => (Return (handlers w sig), set_handler sig h (emit (E_signal sig h) w)).

(** A call into [smtplib]: the network decides whether it fails. *)
Definition smtp_call (op : SmtpOp) : M unit :=
  fun w =>
    let w' := emit (E_smtp op) w in
    match smtp_fails w (trace w) op with
    | None => (Return tt, w')
    | Some (c, msg) => raise_ (Exception c) msg w'
    end.

(** ** Builtins the constructors use *)

(** Whitespace that [int] strips from a string. *)
Definition is_space (a : ascii) : bool :=
  let n := nat_of_ascii a in
  (Nat.leb 9 n && Nat.leb n 13) || (Nat.leb 28 n && Nat.leb n 32).

Fixpoint lstrip (s : string) : string :=
  match s with
  | String a rest => if is_space a then lstrip rest else s
  | EmptyString => EmptyString
  end.

Definition strip (s : string) : string :=
  String.rev (lstrip (String.rev (lstrip s))).

Definition digit_value (a : ascii) : option Z :=
  let n := nat_of_ascii a in
  if Nat.leb 48 n && Nat.leb n 57 then Some (Z.of_nat (n - 48)) else None.

(** Decimal digits, single underscores allowed between two digits. *)
Fixpoint int_digits (acc : Z) (after_digit : bool) (s : string) : option Z :=
  match s with
  | EmptyString => if after_digit then Some acc else None
  | String a rest =>
      if Ascii.eqb a "_"%char then
        if after_digit then int_digits acc false rest else None
      else
        match digit_value a with
        | Some d => int_digits (10 * acc + d) true rest
        | None => None
        end
  end.

(** [int(s)] for a string [s], base 10; [None] where Python raises
    [ValueError]. *)
Definition int_of_str (s : string) : option Z :=
  match strip s with
  | String "+" rest => int_digits 0 false rest
  | String "-" rest => Z.opp <$> int_digits 0 false rest
  | t => int_digits 0 false t
  end.

(** [repr(s)] for text without quotes or escapes. *)
Definition repr (s : string) : string := "'" +:+ s +:+ "'".

(** What [send] and the constructors read of [urlparse(url)]. Reading the
    attribute [port] raises [ValueError] when the text after the colon is
    not a number in range. *)
Inductive PortAttr :=
| port_is (p : option Z)
| port_invalid (message : string).

Record ParseResult := {
  scheme : string;
  parsed_hostname : option string;
  parsed_port : PortAttr }.

(** ** class SimpleEmailServer *)

Module SimpleEmailServer.

(** [proxy_info]: the dictionary with the keys ['type'], ['host'] and
    ['port']. *)
Record proxy_dict := {
  type_ : string;
  host_ : option string;
  port_ : Z }.

Record t := {
  smtp_host : string;
  smtp_port : Z;
  sender_email : string;
  sender_password : string;
  http_proxy : option string;
  https_proxy : option string;
  proxy_info : option proxy_dict }.

Section Constructor.

(** [urllib.parse.urlparse] *)
Variable urlparse : string -> ParseResult.

Definition _parse_proxy (proxy_url : string) : M proxy_dict :=
  let parsed := urlparse proxy_url in
  let type := if bool_decide (scheme parsed = "http")
                 || bool_decide (scheme parsed = "https")
              then "http" else "socks5" in
  match parsed_port parsed with
  | port_invalid message => raise_ (Exception ValueError) message
  | port_is p =>
      ret {| type_ := type;
             host_ := parsed_hostname parsed;
             port_ := if truthy_int p then default 8080 p else 8080 |}
  end.

Definition __init__ (smtp_host : string) (smtp_port : Z)
    (sender_email sender_password : string)
    (http_proxy https_proxy : option string) : M t :=
  proxy_info <-
    (if truthy_str http_proxy then
       Some <$$> _parse_proxy (default EmptyString http_proxy)
     else if truthy_str https_proxy then
       Some <$$> _parse_proxy (default EmptyString https_proxy)
     else ret None) ;;
  ret {| smtp_host := smtp_host; smtp_port := smtp_port;
         sender_email := sender_email;
         sender_password := sender_password;
         http_proxy := http_proxy; https_proxy := https_proxy;
         proxy_info := proxy_info |}.

End Constructor.

(** [send]. The event [E_send] marks the call itself, so that calls can be
    counted and placed in time. *)
Definition send (self : t) (recipient subject body : string) : M bool :=
  modify (emit (E_send recipient subject body)) ;;
  let msg := {| msg_From := sender_email self; msg_To := recipient;
                msg_Subject := subject; msg_parts := [body] |} in
  try_except_Exception
    (print ("[TERMINATION_MONITOR] Connecting to SMTP server "
            +:+ smtp_host self +:+ ":" +:+ str_int (smtp_port self) +:+ "...") ;;
     match proxy_info self with
     | Some info =>
         let p := {| proxy_type := if bool_decide (type_ info = "http")
                                   then PROXY_TYPE_HTTP else PROXY_TYPE_SOCKS5;
                     proxy_host := host_ info;
                     proxy_port := port_ info |} in
         modify (fun w => set_defaultproxy p (emit (E_setdefaultproxy p) w)) ;;
         modify (fun w => set_socket_socket socks_socksocket
                            (emit (E_socket_socket socks_socksocket) w))
     | None => ret tt
     end ;;
     (if smtp_port self =? 465 then
        smtp_call (SMTP_SSL (smtp_host self) (smtp_port self))
      else
        smtp_call (SMTP (smtp_host self) (smtp_port self)) ;;
        smtp_call starttls) ;;
     smtp_call (login (sender_email self) (sender_password self)) ;;
     smtp_call (sendmail (sender_email self) recipient msg) ;;
     smtp_call quit ;;
     print "[TERMINATION_MONITOR] Email notification sent successfully." ;;
     ret true)
    (fun e =>
       print ("[TERMINATION_MONITOR] Failed to send email. Error: " +:+ exc_str e) ;;
       ret false).

End SimpleEmailServer.


(** ** Builtins the monitor uses *)

(** [a or b] on optional values. *)
Definition or_ {A} (truthy : option A -> bool) (a b : option A) : option A :=
  if truthy a then a else b.

(** [os.getenv(key)] *)
Definition getenv (key : string) : M (option string) :=
  get (fun w => environ w !! key).

(** [int(s)] *)
Definition int_ (s : string) : M Z :=
  match int_of_str s with
  | Some n => ret n
  | None =>
      raise_ (Exception ValueError)
        ("invalid literal for int() with base 10: " +:+ repr s)
  end.

(** [signal.signal(sig, h)] with a handler read from an attribute that may
    still hold [None]. *)
Definition signal_signal_opt (sig : Signals) (h : option Handler) : M Handler :=
  match h with
  | Some h => signal_signal sig h
  | None =>
      raise_ (Exception TypeError)
        "signal handler must be signal.SIG_IGN, signal.SIG_DFL, or a callable object"
  end.

(** [traceback.format_exception_only] *)
Definition format_exception_only (e : BaseException) : string :=
  match exc_str e with
  | EmptyString => class_name (exc_type e) +:+ nl
  | s => class_name (exc_type e) +:+ ": " +:+ s +:+ nl
  end.

(** ["".join(traceback.format_exception(exc_type, exc_value, tb))] *)
Definition format_exception (e : BaseException) : string :=
  exc_chain e +:+ "Traceback (most recent call last):" +:+ nl
  +:+ exc_frames e +:+ format_exception_only e.

(** [sys.exit(message)] *)
Definition sys_exit {A} (message : string) : M A := raise_ SystemExit message.

(** ** class termination_monitor *)

Module termination_monitor.

(** The keyword arguments of the constructor; each defaults to [None]. *)
Record kwargs := {
  kw_recipient_email : option string;
  kw_smtp_host : option string;
  kw_smtp_port : option Z;
  kw_sender_email : option string;
  kw_sender_password : option string }.

Record t := {
  recipient_email : option string;
  smtp_host : string;
  smtp_port : Z;
  sender_email : option string;
  sender_password : option string;
  http_proxy : option string;
  https_proxy : option string;
  mailer : option SimpleEmailServer.t;
  _original_sigint : option Handler;
  _original_sigterm : option Handler }.

Definition warning_line : string :=
  "[TERMINATION_MONITOR] Warning: Email configuration incomplete. Email alerts will be disabled.".

Section Constructor.

Variable urlparse : string -> ParseResult.

Definition __init__ (kw : kwargs) : M t :=
  env_recipient <- getenv "TERMINATION_MONITOR_RECIPIENT_EMAIL" ;;
  let recipient_email := or_ truthy_str (kw_recipient_email kw) env_recipient in
  env_host <- getenv "TERMINATION_MONITOR_SMTP_HOST" ;;
  let smtp_host :=
    if truthy_str (kw_smtp_host kw) then default EmptyString (kw_smtp_host kw)
    else default "smtp.gmail.com" env_host in
  env_port <- getenv "TERMINATION_MONITOR_SMTP_PORT" ;;
  smtp_port <-
    (if truthy_int (kw_smtp_port kw) then ret (default 0 (kw_smtp_port kw))
     else match env_port with
          | Some s => int_ s
          | None => ret 587
          end) ;;
  env_sender <- getenv "TERMINATION_MONITOR_SENDER_EMAIL" ;;
  let sender_email := or_ truthy_str (kw_sender_email kw) env_sender in
  env_password <- getenv "TERMINATION_MONITOR_SENDER_PASSWORD" ;;
  let sender_password := or_ truthy_str (kw_sender_password kw) env_password in
  http_proxy <- getenv "TERMINATION_MONITOR_HTTP_PROXY" ;;
  https_proxy <- getenv "TERMINATION_MONITOR_HTTPS_PROXY" ;;
  mailer <-
    (if truthy_str sender_email && truthy_str sender_password
        && truthy_str recipient_email
     then
       Some <$$> SimpleEmailServer.__init__ urlparse smtp_host smtp_port
                   (default EmptyString sender_email)
                   (default EmptyString sender_password)
                   http_proxy https_proxy
     else
       print warning_line ;; ret None) ;;
  ret {| recipient_email := recipient_email;
         smtp_host := smtp_host;
         smtp_port := smtp_port;
         sender_email := sender_email;
         sender_password := sender_password;
         http_proxy := http_proxy;
         https_proxy := https_proxy;
         mailer := mailer;
         _original_sigint := None;
         _original_sigterm := None |}.

End Constructor.

Definition set_original_sigterm (h : Handler) (self : t) : t :=
  {| recipient_email := recipient_email self; smtp_host := smtp_host self;
     smtp_port := smtp_port self; sender_email := sender_email self;
     sender_password := sender_password self; http_proxy := http_proxy self;
     https_proxy := https_proxy self; mailer := mailer self;
     _original_sigint := _original_sigint self;
     _original_sigterm := Some h |}.

Definition set_original_sigint (h : Handler) (self : t) : t :=
  {| recipient_email := recipient_email self; smtp_host := smtp_host self;
     smtp_port := smtp_port self; sender_email := sender_email self;
     sender_password := sender_password self; http_proxy := http_proxy self;
     https_proxy := https_proxy self; mailer := mailer self;
     _original_sigint := Some h;
     _original_sigterm := _original_sigterm self |}.

Definition started_subject : string :=
  "[INFO] Monitoring Activated: Your Program Started".

Definition started_body (hostname start_time : string) : string :=
  "Program monitoring has started successfully." +:+ nl +:+ nl
  +:+ "Host Machine: " +:+ hostname +:+ nl
  +:+ "Start Time: " +:+ start_time +:+ nl
  +:+ "----------------------------------------" +:+ nl
  +:+ "You will receive another email when the program terminates (success or failure)."
  +:+ nl.

(** [__enter__]: returns [self], here with the two attributes it assigned. *)
Definition __enter__ (self : t) : M t :=
  start_time <- get clock ;;
  print ("[TERMINATION_MONITOR] Monitoring started at " +:+ start_time +:+ "...") ;;
  old_sigterm <- signal_signal SIGTERM monitor_handle_signal ;;
  let self := set_original_sigterm old_sigterm self in
  old_sigint <- signal_signal SIGINT monitor_handle_signal ;;
  let self := set_original_sigint old_sigint self in
  match mailer self with
  | Some m =>
      hostname <- get hostname ;;
      print "[TERMINATION_MONITOR] Sending start-up notification..." ;;
      SimpleEmailServer.send m (default EmptyString (recipient_email self))
        started_subject (started_body hostname start_time) ;;
      ret tt
  | None => ret tt
  end ;;
  ret self.

Definition alert_subject (status : string) : string :=
  "[ALERT] Your Program is Terminated: " +:+ status.

Definition alert_body (hostname status time details : string) : string :=
  "Your program monitoring report:" +:+ nl +:+ nl
  +:+ "Host Machine: " +:+ hostname +:+ nl
  +:+ "Status: " +:+ status +:+ nl
  +:+ "Time: " +:+ time +:+ nl
  +:+ "----------------------------------------" +:+ nl
  +:+ "Error Logs / Traceback:" +:+ nl
  +:+ details +:+ nl
  +:+ "----------------------------------------" +:+ nl
  +:+ "This is an automated message from Your_Program_is_Terminated library.".

Definition _trigger_alert (self : t) (status details time : string) : M unit :=
  match mailer self with
  | None => print "[TERMINATION_MONITOR] No email configuration. Skipping alert."
  | Some m =>
      print "[TERMINATION_MONITOR] Preparing termination report..." ;;
      hostname <- get hostname ;;
      SimpleEmailServer.send m (default EmptyString (recipient_email self))
        (alert_subject status) (alert_body hostname status time details) ;;
      ret tt
  end.

(** [__exit__(exc_type, exc_value, tb)]: the three arguments are all [None]
    or describe one exception. [report] holds the local variables [status]
    and [error_details]. *)
Definition __exit__ (self : t) (exc : option BaseException) : M bool :=
  end_time <- get clock ;;
  signal_signal_opt SIGTERM (_original_sigterm self) ;;
  signal_signal_opt SIGINT (_original_sigint self) ;;
  report <-
    match exc with
    | Some e =>
        let status := "Crashed / Terminated" in
        let error_details := format_exception e in
        print (nl +:+ "[TERMINATION_MONITOR] Exception detected:" +:+ nl
               +:+ error_details) ;;
        match exc_type e with
        | KeyboardInterrupt =>
            ret ("Interrupted by User (Ctrl+C)",
                 "User manually stopped the program.")
        | _ => ret (status, error_details)
        end
    | None => ret ("Success", "None")
    end ;;
  _trigger_alert self (fst report) (snd report) end_time ;;
  ret false.

Definition _handle_signal (self : t) (signum : Signals) : M unit :=
  let sig_name := Signals_name signum in
  print (nl +:+ "[TERMINATION_MONITOR] Signal received: " +:+ sig_name) ;;
  sys_exit ("Process terminated by signal " +:+ sig_name).

End termination_monitor.

(** ** The process around the monitor *)

Section Process.

(** What calling another Python handler does. *)
Variable call : nat -> Signals -> M unit.

(** The operating system ends the process. *)
Definition kill {A} (s : Signals) : M A := fun w => (Killed s, w).

(** Signal [sig] arrives: the installed handler runs in the main thread, at
    the point the program has reached. The default action of every signal
    listed in [Signals] is to terminate the process. A block says where a
    signal arrives by calling [deliver]; signals that arrive while
    [__enter__], [__exit__] or [send] run are not modelled. *)
Definition deliver (self : termination_monitor.t) (sig : Signals) : M unit :=
  h <- get (fun w => handlers w sig) ;;
  match h with
  | SIG_DFL => kill sig
  | SIG_IGN => ret tt
  | default_int_handler => raise_ KeyboardInterrupt EmptyString
  | monitor_handle_signal => termination_monitor._handle_signal self sig
  | PyCallable id => call id sig
  end.

End Process.

(** [with mgr as m: block]. [__exit__] runs when the block returns or
    raises; an exception is raised again after it unless [__exit__] returned
    a true value. *)
Definition with_ (mgr : termination_monitor.t)
    (block : termination_monitor.t -> M unit) : M unit :=
  m <- termination_monitor.__enter__ mgr ;;
  fun w =>
    match block m w with
    | (Return _, w') =>
        (termination_monitor.__exit__ m None ;; ret tt) w'
    | (Raise e, w') =>
        match termination_monitor.__exit__ m (Some e) w' with
        | (Return suppress, w'') =>
            if suppress then (Return tt, w'') else (Raise e, w'')
        | (Raise e', w'') => (Raise e', w'')
        | (Killed s, w'') => (Killed s, w'')
        end
    | (Killed s, w') => (Killed s, w')
    end.


(** ** Reading a trace *)

(** The calls to [send] in a trace, in order. *)
Fixpoint sends (t : list Event) : list (string * string * string) :=
  match t with
  | [] => []
  | E_send recipient subject body :: t' => (recipient, subject, body) :: sends t'
  | _ :: t' => sends t'
  end.

(** What [send] does after it was entered: printing, setting the proxy up
    and talking to the server. *)
Definition is_delivery (e : Event) : bool :=
  match e with
  | E_print _ | E_setdefaultproxy _ | E_socket_socket _ | E_smtp _ => true
  | E_send _ _ _ | E_signal _ _ => false
  end.

(** Network traffic and what prepares it. *)
Definition is_network (e : Event) : bool :=
  match e with
  | E_send _ _ _ | E_setdefaultproxy _ | E_socket_socket _ | E_smtp _ => true
  | E_print _ | E_signal _ _ => false
  end.

Definition is_smtp (e : Event) : bool :=
  match e with
  | E_smtp _ => true
  | _ => false
  end.

Definition is_signal_change (e : Event) : bool :=
  match e with
  | E_signal _ _ => true
  | _ => false
  end.

Definition is_socket_assignment (e : Event) : bool :=
  match e with
  | E_socket_socket _ => true
  | _ => false
  end.


(** Everything but the trace, the socket factory and the proxy is as it
    was. *)
Definition same_process (w w' : World) : Prop :=
  environ w' = environ w /\ handlers w' = handlers w /\
  hostname w' = hostname w /\ clock w' = clock w /\
  raise_site w' = raise_site w /\ smtp_fails w' = smtp_fails w.

(** The guard is armed: [__enter__] stored the handlers it replaced. *)
Definition armed (self : termination_monitor.t) (sigterm sigint : Handler) : Prop :=
  termination_monitor._original_sigterm self = Some sigterm /\
  termination_monitor._original_sigint self = Some sigint.

(** Degraded mode: there is no mailer, so [if self.mailer] fails. *)
Definition degraded (self : termination_monitor.t) : bool :=
  match termination_monitor.mailer self with
  | Some _ => false
  | None => true
  end.

(** What [__exit__] prints about the exception, if there is one. *)
Definition exception_report (exc : option BaseException) : list Event :=
  match exc with
  | Some e =>
      [E_print (nl +:+ "[TERMINATION_MONITOR] Exception detected:" +:+ nl
                +:+ format_exception e)]
  | None => []
  end.

(** The values of [status] and [error_details] at the call of
    [_trigger_alert]. *)
Definition status_of (exc : option BaseException) : string :=
  match exc with
  | None => "Success"
  | Some e =>
      match exc_type e with
      | KeyboardInterrupt => "Interrupted by User (Ctrl+C)"
      | _ => "Crashed / Terminated"
      end
  end.

Definition details_of (exc : option BaseException) : string :=
  match exc with
  | None => "None"
  | Some e =>
      match exc_type e with
      | KeyboardInterrupt => "User manually stopped the program."
      | _ => format_exception e
      end
  end.




(** The result of a computation, seen through [f]. *)
Definition map_result {A B} (f : A -> B) (r : Result A) : Result B :=
  match r with
  | Return a => Return (f a)
  | Raise e => Raise e
  | Killed s => Killed s
  end.

(** The same process with another environment. *)
Definition set_environ (env : gmap string string) (w : World) : World :=
  {| environ := env; handlers := handlers w;
     socket_socket := socket_socket w;
     socks_defaultproxy := socks_defaultproxy w;
     hostname := hostname w; clock := clock w; raise_site := raise_site w;
     smtp_fails := smtp_fails w; trace := trace w |}.

(** ** A process to run the monitor in *)

Module Example.

(** A stand-in for [urlparse] on the one proxy URL used below. *)
Definition urlparse (url : string) : ParseResult :=
  {| scheme := "http";
     parsed_hostname := Some "proxy.example.org";
     parsed_port := port_is (Some 3128) |}.

Definition no_failure (history : list Event) (op : SmtpOp)
    : option (ExceptionClass * string) := None.

(** No route to the server: opening the connection fails. *)
Definition unreachable (history : list Event) (op : SmtpOp)
    : option (ExceptionClass * string) :=
  match op with
  | SMTP _ _ | SMTP_SSL _ _ => Some (OSError, "[Errno 101] Network is unreachable")
  | _ => None
  end.

(** A process as the interpreter starts it, with the sender configured in
    the environment. *)
Definition world : World :=
  {| environ :=
       <["TERMINATION_MONITOR_RECIPIENT_EMAIL" := "fallback@example.org"]>
       (<["TERMINATION_MONITOR_SENDER_EMAIL" := "bot@example.org"]>
       (<["TERMINATION_MONITOR_SENDER_PASSWORD" := "secret"]> ∅));
     handlers := fun s => match s with
                          | SIGINT => default_int_handler
                          | _ => SIG_DFL
                          end;
     socket_socket := stock_socket;
     socks_defaultproxy := None;
     hostname := "worker-1";
     clock := "2024-05-01 12:00:00.000000";
     raise_site := {| site_chain := EmptyString;
                      site_frames := "  File job.py, line 7, in <module>" +:+ nl |};
     smtp_fails := no_failure;
     trace := [] |}.

Definition offline_world : World :=
  {| environ := environ world; handlers := handlers world;
     socket_socket := stock_socket; socks_defaultproxy := None;
     hostname := hostname world; clock := clock world;
     raise_site := raise_site world;
     smtp_fails := unreachable; trace := [] |}.

(** [termination_monitor(recipient_email="ops@example.org")] *)
Definition kw : termination_monitor.kwargs :=
  {| termination_monitor.kw_recipient_email := Some "ops@example.org";
     termination_monitor.kw_smtp_host := None;
     termination_monitor.kw_smtp_port := None;
     termination_monitor.kw_sender_email := None;
     termination_monitor.kw_sender_password := None |}.

Definition server : SimpleEmailServer.t :=
  {| SimpleEmailServer.smtp_host := "smtp.gmail.com";
     SimpleEmailServer.smtp_port := 587;
     SimpleEmailServer.sender_email := "bot@example.org";
     SimpleEmailServer.sender_password := "secret";
     SimpleEmailServer.http_proxy := None;
     SimpleEmailServer.https_proxy := None;
     SimpleEmailServer.proxy_info := None |}.

Definition proxy : SimpleEmailServer.proxy_dict :=
  {| SimpleEmailServer.type_ := "http";
     SimpleEmailServer.host_ := Some "proxy.example.org";
     SimpleEmailServer.port_ := 3128 |}.

Definition proxied_server : SimpleEmailServer.t :=
  {| SimpleEmailServer.smtp_host := "smtp.gmail.com";
     SimpleEmailServer.smtp_port := 587;
     SimpleEmailServer.sender_email := "bot@example.org";
     SimpleEmailServer.sender_password := "secret";
     SimpleEmailServer.http_proxy := Some "http://proxy.example.org:3128";
     SimpleEmailServer.https_proxy := None;
     SimpleEmailServer.proxy_info := Some proxy |}.

(** The monitor the constructor builds from [kw] in [world]. *)
Definition monitor : termination_monitor.t :=
  {| termination_monitor.recipient_email := Some "ops@example.org";
     termination_monitor.smtp_host := "smtp.gmail.com";
     termination_monitor.smtp_port := 587;
     termination_monitor.sender_email := Some "bot@example.org";
     termination_monitor.sender_password := Some "secret";
     termination_monitor.http_proxy := None;
     termination_monitor.https_proxy := None;
     termination_monitor.mailer := Some server;
     termination_monitor._original_sigint := None;
     termination_monitor._original_sigterm := None |}.

(** No other Python handler is installed in these processes. *)
Definition call (id : nat) (sig : Signals) : M unit := ret tt.

(** [with monitor: raise ValueError("x")] *)
Definition failing_block (m : termination_monitor.t) : M unit :=
  raise_ (Exception ValueError) "x".



(** What [failing_block] raises in [world]. *)
Definition value_error : BaseException :=
  {| exc_type := Exception ValueError; exc_str := "x";
     exc_chain := site_chain (raise_site world);
     exc_frames := site_frames (raise_site world) |}.

(** The subjects of the calls to [send], in order. *)
Definition subjects (w : World) : list string :=
  map (fun call => snd (fst call)) (sends (trace w)).

(** [termination_monitor()] in a process whose environment gives no
    recipient and no sender. *)
Definition degraded_monitor : termination_monitor.t :=
  {| termination_monitor.recipient_email := None;
     termination_monitor.smtp_host := "smtp.gmail.com";
     termination_monitor.smtp_port := 587;
     termination_monitor.sender_email := None;
     termination_monitor.sender_password := None;
     termination_monitor.http_proxy := None;
     termination_monitor.https_proxy := None;
     termination_monitor.mailer := None;
     termination_monitor._original_sigint := None;
     termination_monitor._original_sigterm := None |}.


(** [termination_monitor(recipient_email="ops@example.org", smtp_port=465)] *)
Definition kw_ssl : termination_monitor.kwargs :=
  {| termination_monitor.kw_recipient_email := Some "ops@example.org";
     termination_monitor.kw_smtp_host := None;
     termination_monitor.kw_smtp_port := Some 465;
     termination_monitor.kw_sender_email := None;
     termination_monitor.kw_sender_password := None |}.

End Example.

(** * Properties *)

Local Arguments String.append : simpl never.
Local Arguments str_int : simpl never.

(** ** Text *)

Lemma append_assoc (a b c : string) : (a +:+ b) +:+ c = a +:+ b +:+ c.
Proof.
  induction a as [|x a IH]; [reflexivity|].
  change (String x ((a +:+ b) +:+ c) = String x (a +:+ b +:+ c)).
  now rewrite IH.
Qed.

Lemma prefix_append (n rest : string) : String.prefix n (n +:+ rest) = true.
Proof.
  induction n as [|x n IH]; [now destruct rest|].
  change (String.prefix (String x n) (String x (n +:+ rest)) = true).
  cbn [String.prefix]. destruct (ascii_dec x x); [exact IH | congruence].
Qed.

Lemma contains_here (n rest : string) : contains n (n +:+ rest) = true.
Proof.
  destruct (n +:+ rest) eqn:E; cbn [contains];
    rewrite <- E, prefix_append; reflexivity.
Qed.

Lemma contains_skip (n a b : string) :
  contains n b = true -> contains n (a +:+ b) = true.
Proof.
  intros H. induction a as [|x a IH]; [exact H|].
  change (contains n (String x (a +:+ b)) = true).
  cbn [contains]. rewrite IH. apply orb_true_r.
Qed.

(** ** Traces *)

Lemma sends_app (t u : list Event) : sends (t ++ u) = sends t ++ sends u.
Proof.
  induction t as [|e t IH]; [reflexivity|].
  destruct e; cbn [app sends]; rewrite IH; reflexivity.
Qed.

Lemma sends_delivery (d : list Event) :
  forallb is_delivery d = true -> sends d = [].
Proof.
  induction d as [|e d IH]; [reflexivity|].
  cbn [forallb]. intros [He Hd]%andb_true_iff.
  destruct e; try discriminate He; cbn [sends]; auto.
Qed.

(** ** The mailer *)

Ltac run_send :=
  unfold SimpleEmailServer.send, try_except_Exception, bind, print, modify,
    smtp_call, raise_, ret; simpl.

Ltac split_network :=
  repeat match goal with
  | |- context [smtp_fails ?w ?t ?o] =>
      let H := fresh "Hnet" in
      destruct (smtp_fails w t o) as [[? ?]|] eqn:H; simpl
  end.

(** [send] returns, whatever the network does; it leaves the handlers and
    the rest of the process alone, and after the call itself the trace
    holds delivery events only. *)
Lemma send_returns self recipient subject body w :
  exists ok w' d,
    SimpleEmailServer.send self recipient subject body w = (Return ok, w') /\
    trace w' = trace w ++ E_send recipient subject body :: d /\
    forallb is_delivery d = true /\
    same_process w w'.
Proof.
  run_send.
  destruct (SimpleEmailServer.proxy_info self) as [info|];
  destruct (SimpleEmailServer.smtp_port self =? 465); simpl;
  split_network;
  (eexists _, _, _; split; [reflexivity|]; split;
   [simpl; rewrite <- ?app_assoc; simpl; reflexivity|];
   split; [reflexivity | repeat split]).
Qed.

Local Arguments SimpleEmailServer.send : simpl never.

Ltac use_send :=
  match goal with
  | |- context [SimpleEmailServer.send ?srv ?r ?s ?b ?w] =>
      let ok := fresh "ok" in
      let w' := fresh "w'" in
      let d := fresh "d" in
      let Hs := fresh "Hsend" in
      let Ht := fresh "Htrace" in
      let Hd := fresh "Hdelivery" in
      let Hp := fresh "Hprocess" in
      destruct (send_returns srv r s b w) as (ok & w' & d & Hs & Ht & Hd & Hp);
      rewrite Hs; simpl
  end.

(** ** The monitor *)

(** [__enter__] returns the monitor armed with the handlers it found, and
    leaves the monitor's own handler installed for SIGTERM and SIGINT. *)
Lemma enter_spec mgr w :
  exists m w1 d,
    termination_monitor.__enter__ mgr w = (Return m, w1) /\
    armed m (handlers w SIGTERM) (handlers w SIGINT) /\
    termination_monitor.mailer m = termination_monitor.mailer mgr /\
    termination_monitor.recipient_email m = termination_monitor.recipient_email mgr /\
    handlers w1 SIGTERM = monitor_handle_signal /\
    handlers w1 SIGINT = monitor_handle_signal /\
    trace w1 = trace w ++ d /\
    length (sends d) = (if degraded mgr then 0 else 1)%nat.
Proof.
  unfold termination_monitor.__enter__, degraded, bind, get, print, modify,
    signal_signal, ret; simpl.
  destruct (termination_monitor.mailer mgr) as [srv|] eqn:Hm; simpl.
  - use_send. destruct Hprocess as (_ & Hh & _).
    eexists _, _, _; split; [reflexivity|].
    split; [split; reflexivity|].
    split; [exact Hm|]. split; [reflexivity|].
    rewrite Hh; simpl. split; [reflexivity|]. split; [reflexivity|].
    split; [rewrite Htrace; simpl; rewrite <- ?app_assoc; simpl; reflexivity|].
    cbn [sends length]. rewrite (sends_delivery _ Hdelivery). reflexivity.
  - eexists _, _, _; split; [reflexivity|].
    split; [split; reflexivity|].
    split; [exact Hm|]. split; [reflexivity|].
    split; [reflexivity|]. split; [reflexivity|].
    split; [simpl; rewrite <- ?app_assoc; simpl; reflexivity|].
    reflexivity.
Qed.

(** [__exit__] of an armed monitor: it puts the two handlers back first,
    reports the exception if there is one, sends the alert unless the
    monitor is degraded, and returns [False]. *)
Lemma exit_spec m sigterm sigint exc w :
  armed m sigterm sigint ->
  exists w' d,
    termination_monitor.__exit__ m exc w = (Return false, w') /\
    handlers w' SIGTERM = sigterm /\
    handlers w' SIGINT = sigint /\
    (forall s, s <> SIGTERM -> s <> SIGINT -> handlers w' s = handlers w s) /\
    trace w' = trace w ++ E_signal SIGTERM sigterm :: E_signal SIGINT sigint
                 :: exception_report exc ++ d /\
    match termination_monitor.mailer m with
    | None =>
        d = [E_print "[TERMINATION_MONITOR] No email configuration. Skipping alert."]
    | Some srv =>
        exists d',
          d = E_print "[TERMINATION_MONITOR] Preparing termination report..."
              :: E_send (default EmptyString (termination_monitor.recipient_email m))
                   (termination_monitor.alert_subject (status_of exc))
                   (termination_monitor.alert_body (hostname w) (status_of exc)
                      (clock w) (details_of exc))
              :: d' /\
          forallb is_delivery d' = true
    end.
Proof.
  intros [Hterm Hint].
  unfold termination_monitor.__exit__, bind, get, signal_signal_opt.
  rewrite Hterm, Hint.
  unfold signal_signal, termination_monitor._trigger_alert, bind, print,
    modify, get, ret; simpl.
  assert (Hothers : forall (h : Signals -> Handler) s,
            s <> SIGTERM -> s <> SIGINT ->
            (if decide (s = SIGINT) then sigint
             else if decide (s = SIGTERM) then sigterm else h s) = h s).
  { intros h s H1 H2.
    destruct (decide (s = SIGINT)); [contradiction|].
    destruct (decide (s = SIGTERM)); [contradiction|]. reflexivity. }
  destruct exc as [e|]; simpl;
    [destruct (exc_type e) eqn:Hty; simpl|];
    (destruct (termination_monitor.mailer m) as [srv|]; simpl;
     [ use_send; destruct Hprocess as (_ & Hh & _);
       eexists _, _; split; [reflexivity|];
       rewrite Hh; simpl;
       split; [reflexivity|]; split; [reflexivity|];
       split; [intros s H1 H2; apply Hothers; assumption|];
       split; [rewrite Htrace; simpl; rewrite <- ?app_assoc; simpl; reflexivity|];
       eexists; split; [reflexivity | assumption]
     | eexists _, _; split; [reflexivity|];
       split; [reflexivity|]; split; [reflexivity|];
       split; [intros s H1 H2; apply Hothers; assumption|];
       split; [simpl; rewrite <- ?app_assoc; simpl; reflexivity|];
       reflexivity ]).
Qed.

Lemma delivery_no_signal_change (d : list Event) :
  forallb is_delivery d = true -> existsb is_signal_change d = false.
Proof.
  induction d as [|e d IH]; [reflexivity|].
  cbn [forallb existsb]. intros [He Hd]%andb_true_iff.
  rewrite (IH Hd). destruct e; try discriminate He; reflexivity.
Qed.

(** ** The guarded block *)


(** What the release step adds to the world the block left. *)
Lemma with_release mgr block w :
  exists m w1,
    termination_monitor.__enter__ mgr w = (Return m, w1) /\
    armed m (handlers w SIGTERM) (handlers w SIGINT) /\
    termination_monitor.mailer m = termination_monitor.mailer mgr /\
    termination_monitor.recipient_email m = termination_monitor.recipient_email mgr /\
    handlers w1 SIGTERM = monitor_handle_signal /\
    handlers w1 SIGINT = monitor_handle_signal /\
    match block m w1 with
    | (Return _, w2) =>
        with_ mgr block w
        = (Return tt, snd (termination_monitor.__exit__ m None w2))
    | (Raise e, w2) =>
        with_ mgr block w
        = (Raise e, snd (termination_monitor.__exit__ m (Some e) w2))
    | (Killed s, w2) => with_ mgr block w = (Killed s, w2)
    end.
Proof.
  destruct (enter_spec mgr w)
    as (m & w1 & d & Henter & Harmed & Hmailer & Hrcpt & Hterm & Hint & _).
  exists m, w1. repeat (split; [assumption|]).
  unfold with_, bind. rewrite Henter.
  destruct (block m w1) as [[[]|e|s] w2] eqn:Hblock.
  - destruct (exit_spec m _ _ None w2 Harmed) as (w3 & d3 & Hexit & _).
    rewrite Hexit. reflexivity.
  - destruct (exit_spec m _ _ (Some e) w2 Harmed) as (w3 & d3 & Hexit & _).
    rewrite Hexit. reflexivity.
  - reflexivity.
Qed.


(** C1: every execution of the guarded block that ends, by returning or by
    raising any exception, is followed by exactly one call to [send] from
    the release step when the monitor has a mailer, and by none when it is
    degraded. *)
Theorem one_alert_per_block mgr block w :
  exists m w1,
    termination_monitor.__enter__ mgr w = (Return m, w1) /\
    match block m w1 with
    | (Killed s, w2) => with_ mgr block w = (Killed s, w2)
    | (_, w2) =>
        exists d,
          trace (snd (with_ mgr block w)) = trace w2 ++ d /\
          length (sends d) = (if degraded mgr then 0 else 1)%nat
    end.
Proof.
  destruct (with_release mgr block w)
    as (m & w1 & Henter & Harmed & Hmailer & _ & _ & _ & Hwith).
  exists m, w1. split; [exact Henter|].
  assert (Hexit : forall exc w2,
            exists d,
              trace (snd (termination_monitor.__exit__ m exc w2)) = trace w2 ++ d /\
              length (sends d) = (if degraded mgr then 0 else 1)%nat).
  { intros exc w2.
    destruct (exit_spec m _ _ exc w2 Harmed)
      as (w3 & d & Hexit & _ & _ & _ & Htrace & Hd).
    rewrite Hexit. cbn [snd]. eexists. split; [exact Htrace|].
    unfold degraded. rewrite <- Hmailer.
    assert (Hrep : sends (exception_report exc) = [])
      by (destruct exc; reflexivity).
    cbn [sends]. rewrite sends_app, Hrep. cbn [app].
    destruct (termination_monitor.mailer m) as [srv|].
    - destruct Hd as (d' & -> & Hd'). cbn [sends].
      rewrite (sends_delivery _ Hd'). reflexivity.
    - subst d. reflexivity. }
  destruct (block m w1) as [[[]|e|s] w2]; rewrite Hwith; cbn [snd]; auto.
Qed.

(** C2: whatever ends the block (normal completion, an error, the exit a
    signal was turned into), the release step puts back the handlers of
    SIGTERM and SIGINT that were installed when the guard was acquired, as
    its first two effects: every event of the notification follows them, so
    that no behaviour of the network can prevent the restoration. The
    handlers of all other signals stay as the block left them. *)
Theorem handlers_restored_first mgr block w :
  exists m w1,
    termination_monitor.__enter__ mgr w = (Return m, w1) /\
    match block m w1 with
    | (Killed s, w2) => with_ mgr block w = (Killed s, w2)
    | (_, w2) =>
        exists d,
          let w3 := snd (with_ mgr block w) in
          handlers w3 SIGTERM = handlers w SIGTERM /\
          handlers w3 SIGINT = handlers w SIGINT /\
          (forall s, s <> SIGTERM -> s <> SIGINT -> handlers w3 s = handlers w2 s) /\
          trace w3 = trace w2 ++ E_signal SIGTERM (handlers w SIGTERM)
                       :: E_signal SIGINT (handlers w SIGINT) :: d /\
          existsb is_signal_change d = false
    end.
Proof.
  destruct (with_release mgr block w)
    as (m & w1 & Henter & Harmed & _ & _ & _ & _ & Hwith).
  exists m, w1. split; [exact Henter|].
  assert (Hexit : forall exc w2,
            exists d,
              let w3 := snd (termination_monitor.__exit__ m exc w2) in
              handlers w3 SIGTERM = handlers w SIGTERM /\
              handlers w3 SIGINT = handlers w SIGINT /\
              (forall s, s <> SIGTERM -> s <> SIGINT -> handlers w3 s = handlers w2 s) /\
              trace w3 = trace w2 ++ E_signal SIGTERM (handlers w SIGTERM)
                           :: E_signal SIGINT (handlers w SIGINT) :: d /\
              existsb is_signal_change d = false).
  { intros exc w2.
    destruct (exit_spec m _ _ exc w2 Harmed)
      as (w3 & d & Hexit & Hterm & Hint & Hothers & Htrace & Hd).
    rewrite Hexit. cbn [snd]. eexists.
    repeat (split; [eassumption|]).
    rewrite existsb_app.
    assert (Hrep : existsb is_signal_change (exception_report exc) = false)
      by (destruct exc; reflexivity).
    rewrite Hrep. cbn [orb].
    destruct (termination_monitor.mailer m) as [srv|].
    - destruct Hd as (d' & -> & Hd'). cbn [existsb is_signal_change orb].
      apply delivery_no_signal_change, Hd'.
    - subst d. reflexivity. }
  destruct (block m w1) as [[[]|e|s] w2]; rewrite Hwith; cbn [snd]; auto.
Qed.

(** ** Delivery failures *)



(** ** The proxy *)

(** C9: with a proxy configured, every call to [send] sets the default
    proxy of [socks] and assigns [socks.socksocket] to [socket.socket]
    before it opens the connection to the server, and no later step of the
    call assigns [socket.socket] again: when the call is over, whatever its
    result, the socket factory of the process is still [socks.socksocket]
    and the default proxy is still set. *)
Theorem proxy_replaces_socket_factory self info recipient subject body w :
  SimpleEmailServer.proxy_info self = Some info ->
  let p := {| proxy_type := if bool_decide (SimpleEmailServer.type_ info = "http")
                            then PROXY_TYPE_HTTP else PROXY_TYPE_SOCKS5;
              proxy_host := SimpleEmailServer.host_ info;
              proxy_port := SimpleEmailServer.port_ info |} in
  let w' := snd (SimpleEmailServer.send self recipient subject body w) in
  exists connect d,
    socket_socket w' = socks_socksocket /\
    socks_defaultproxy w' = Some p /\
    trace w' = trace w ++
      [E_send recipient subject body;
       E_print ("[TERMINATION_MONITOR] Connecting to SMTP server "
                +:+ SimpleEmailServer.smtp_host self +:+ ":"
                +:+ str_int (SimpleEmailServer.smtp_port self) +:+ "...");
       E_setdefaultproxy p;
       E_socket_socket socks_socksocket;
       E_smtp connect] ++ d /\
    (connect = SMTP_SSL (SimpleEmailServer.smtp_host self)
                 (SimpleEmailServer.smtp_port self) \/
     connect = SMTP (SimpleEmailServer.smtp_host self)
                 (SimpleEmailServer.smtp_port self)) /\
    existsb is_socket_assignment d = false.
Proof.
  intros Hproxy. run_send. rewrite Hproxy.
  destruct (SimpleEmailServer.smtp_port self =? 465); simpl;
  split_network;
  (eexists _, _; split; [reflexivity|]; split; [reflexivity|]; split;
   [simpl; rewrite <- ?app_assoc; simpl; reflexivity|];
   split; [auto | reflexivity]).
Qed.

(** ** The constructor *)

(** What the constructor computes: each attribute, the mailer, the warning;
    and why it raises when it does. *)
Lemma init_spec up kw w :
  let recipient :=
    or_ truthy_str (termination_monitor.kw_recipient_email kw)
      (environ w !! "TERMINATION_MONITOR_RECIPIENT_EMAIL") in
  let sender :=
    or_ truthy_str (termination_monitor.kw_sender_email kw)
      (environ w !! "TERMINATION_MONITOR_SENDER_EMAIL") in
  let password :=
    or_ truthy_str (termination_monitor.kw_sender_password kw)
      (environ w !! "TERMINATION_MONITOR_SENDER_PASSWORD") in
  let complete := truthy_str sender && truthy_str password && truthy_str recipient in
  match termination_monitor.__init__ up kw w with
  | (Return m, w') =>
      termination_monitor.recipient_email m = recipient /\
      termination_monitor.sender_email m = sender /\
      termination_monitor.sender_password m = password /\
      termination_monitor.smtp_host m
      = (if truthy_str (termination_monitor.kw_smtp_host kw)
         then default EmptyString (termination_monitor.kw_smtp_host kw)
         else default "smtp.gmail.com" (environ w !! "TERMINATION_MONITOR_SMTP_HOST")) /\
      (if truthy_int (termination_monitor.kw_smtp_port kw)
       then termination_monitor.kw_smtp_port kw = Some (termination_monitor.smtp_port m)
       else match environ w !! "TERMINATION_MONITOR_SMTP_PORT" with
            | Some s => int_of_str s = Some (termination_monitor.smtp_port m)
            | None => termination_monitor.smtp_port m = 587
            end) /\
      termination_monitor.http_proxy m = environ w !! "TERMINATION_MONITOR_HTTP_PROXY" /\
      termination_monitor.https_proxy m = environ w !! "TERMINATION_MONITOR_HTTPS_PROXY" /\
      degraded m = negb complete /\
      trace w' = trace w ++ (if complete then [] else [E_print termination_monitor.warning_line]) /\
      same_process w w'
  | (Raise e, w') =>
      exc_type e = Exception ValueError /\ w' = w /\
      ((truthy_int (termination_monitor.kw_smtp_port kw) = false /\
        exists s, environ w !! "TERMINATION_MONITOR_SMTP_PORT" = Some s /\
                  int_of_str s = None) \/
       (complete = true /\
        (truthy_str (environ w !! "TERMINATION_MONITOR_HTTP_PROXY") = true \/
         truthy_str (environ w !! "TERMINATION_MONITOR_HTTPS_PROXY") = true)))
  | (Killed _, _) => False
  end.
Proof.
  unfold termination_monitor.__init__, SimpleEmailServer.__init__,
    SimpleEmailServer._parse_proxy, fmap_M, bind, getenv, get, int_, raise_,
    print, modify, ret, degraded.
  cbn beta iota zeta.
  assert (Hsame : same_process w w) by (repeat split).
  assert (Hwarn : same_process w (emit (E_print termination_monitor.warning_line) w))
    by (repeat split).
  destruct (truthy_int (termination_monitor.kw_smtp_port kw)) eqn:Hport;
    [destruct (termination_monitor.kw_smtp_port kw) as [n|];
       [|discriminate Hport]
    |destruct (environ w !! "TERMINATION_MONITOR_SMTP_PORT") as [s|] eqn:Henv;
       [destruct (int_of_str s) as [n|] eqn:Hint;
          [|simpl; split; [reflexivity|]; split; [reflexivity|]; left; eauto]
       |] ];
    (simpl;
     remember (_ && _ && _) as complete eqn:Hcomplete;
     destruct complete; simpl; [|auto 15];
     destruct (truthy_str (environ w !! "TERMINATION_MONITOR_HTTP_PROXY")) eqn:Hhttp;
       [|destruct (truthy_str (environ w !! "TERMINATION_MONITOR_HTTPS_PROXY")) eqn:Hhttps];
       simpl;
       try (destruct (parsed_port (up _)); simpl);
       rewrite ?app_nil_r; auto 15).
Qed.


(** C8 as amended: the recipient, the host, the port, the sender address and
    the sender password are each taken from the constructor's argument when
    that is given (a non-empty string, a port other than 0) and from the
    environment variable otherwise, the host and the port falling back to
    ['smtp.gmail.com'] and [587]; the two proxy URLs are read from the
    environment alone. *)
Theorem configuration_sources up kw w m w' :
  termination_monitor.__init__ up kw w = (Return m, w') ->
  termination_monitor.recipient_email m
  = (if truthy_str (termination_monitor.kw_recipient_email kw)
     then termination_monitor.kw_recipient_email kw
     else environ w !! "TERMINATION_MONITOR_RECIPIENT_EMAIL") /\
  Some (termination_monitor.smtp_host m)
  = (if truthy_str (termination_monitor.kw_smtp_host kw)
     then termination_monitor.kw_smtp_host kw
     else Some (default "smtp.gmail.com"
                  (environ w !! "TERMINATION_MONITOR_SMTP_HOST"))) /\
  (if truthy_int (termination_monitor.kw_smtp_port kw)
   then termination_monitor.kw_smtp_port kw = Some (termination_monitor.smtp_port m)
   else match environ w !! "TERMINATION_MONITOR_SMTP_PORT" with
        | Some s => int_of_str s = Some (termination_monitor.smtp_port m)
        | None => termination_monitor.smtp_port m = 587
        end) /\
  termination_monitor.sender_email m
  = (if truthy_str (termination_monitor.kw_sender_email kw)
     then termination_monitor.kw_sender_email kw
     else environ w !! "TERMINATION_MONITOR_SENDER_EMAIL") /\
  termination_monitor.sender_password m
  = (if truthy_str (termination_monitor.kw_sender_password kw)
     then termination_monitor.kw_sender_password kw
     else environ w !! "TERMINATION_MONITOR_SENDER_PASSWORD") /\
  termination_monitor.http_proxy m = environ w !! "TERMINATION_MONITOR_HTTP_PROXY" /\
  termination_monitor.https_proxy m = environ w !! "TERMINATION_MONITOR_HTTPS_PROXY".
Proof.
  intros Hinit. pose proof (init_spec up kw w) as H. cbv zeta in H.
  rewrite Hinit in H.
  destruct H as (Hr & Hs & Hp & Hhost & Hport & Hhttp & Hhttps & _).
  repeat split; try assumption.
  rewrite Hhost.
  destruct (termination_monitor.kw_smtp_host kw) as [[|c s]|]; reflexivity.
Qed.

(** The constructor has no argument for a proxy: where the environment
    names none, no choice of arguments gives the monitor one. *)
Lemma proxy_is_no_constructor_argument :
  ~ exists kw m w',
      termination_monitor.__init__ Example.urlparse kw Example.world = (Return m, w') /\
      (termination_monitor.http_proxy m <> None \/
       termination_monitor.https_proxy m <> None).
Proof.
  intros (kw & m & w' & Hinit & Hproxy).
  pose proof (init_spec Example.urlparse kw Example.world) as H. cbv zeta in H.
  rewrite Hinit in H.
  destruct H as (_ & _ & _ & _ & _ & Hhttp & Hhttps & _).
  rewrite Hhttp, Hhttps in Hproxy.
  destruct Hproxy as [Hp | Hp]; apply Hp; reflexivity.
Qed.

(** The constructor run on [Example.kw] in [Example.world]: the recipient
    given as an argument wins over the one in the environment, the sender
    comes from the environment, and there is no proxy. *)
Lemma configuration_sources_example :
  termination_monitor.__init__ Example.urlparse Example.kw Example.world
    = (Return Example.monitor, Example.world) /\
  termination_monitor.recipient_email Example.monitor = Some "ops@example.org" /\
  termination_monitor.sender_email Example.monitor = Some "bot@example.org" /\
  termination_monitor.http_proxy Example.monitor = None.
Proof.
  assert (Hinit : termination_monitor.__init__ Example.urlparse Example.kw
                    Example.world = (Return Example.monitor, Example.world))
    by (vm_compute; reflexivity).
  split; [exact Hinit|].
  destruct (configuration_sources _ _ _ _ _ Hinit)
    as (Hr & _ & _ & Hs & _ & Hh & _).
  split; [exact Hr|]. split; [exact Hs|]. exact Hh.
Defined.

(** ** What the alert says *)

Lemma prefix_append_l (n a b : string) :
  String.prefix n a = true -> String.prefix n (a +:+ b) = true.
Proof.
  revert a. induction n as [|x n IH]; intros a H;
    [destruct (a +:+ b); reflexivity|].
  destruct a as [|y a]; [discriminate H|].
  change (String.prefix (String x n) (String y (a +:+ b)) = true).
  cbn [String.prefix] in *.
  destruct (ascii_dec x y); [apply IH, H | discriminate H].
Qed.

Lemma contains_append_l (n a b : string) :
  contains n a = true -> contains n (a +:+ b) = true.
Proof.
  induction a as [|x a IH]; intros H.
  - cbn [contains] in H. rewrite orb_false_r in H.
    destruct n; [|discriminate H]. destruct b; reflexivity.
  - change (contains n (String x (a +:+ b)) = true).
    cbn [contains] in *. apply orb_true_iff in H as [H | H].
    + pose proof (prefix_append_l _ (String x a) b H) as Hp.
      change (String x a +:+ b) with (String x (a +:+ b)) in Hp.
      rewrite Hp. reflexivity.
    + rewrite (IH H). apply orb_true_r.
Qed.

Ltac find_text H :=
  first [ apply contains_append_l; exact H
        | apply contains_skip; find_text H ].

(** The body of the alert quotes the details. *)
Lemma alert_body_quotes n hostname status time details :
  contains n details = true ->
  contains n (termination_monitor.alert_body hostname status time details) = true.
Proof.
  intros H. unfold termination_monitor.alert_body. find_text H.
Qed.

(** The formatted exception ends with the class and the text of the
    exception. *)
Lemma format_exception_names e c s :
  exc_str e = String c s ->
  contains (class_name (exc_type e) +:+ ": " +:+ String c s)
    (format_exception e) = true.
Proof.
  intros Hs. unfold format_exception, format_exception_only. rewrite Hs.
  do 4 apply contains_skip.
  rewrite <- !append_assoc. apply contains_here.
Qed.

Lemma prefix_split (a hay : string) :
  String.prefix a hay = true -> exists rest, hay = a +:+ rest.
Proof.
  revert hay. induction a as [|x a IH]; intros hay H.
  - exists hay. reflexivity.
  - destruct hay as [|y hay]; [discriminate H|].
    cbn [String.prefix] in H.
    destruct (ascii_dec x y) as [->|]; [|discriminate H].
    destruct (IH _ H) as (rest & ->). exists rest. reflexivity.
Qed.

Lemma contains_refl (n : string) : contains n n = true.
Proof.
  assert (H : String.prefix n n = true).
  { induction n as [|x n IH]; [reflexivity|].
    cbn [String.prefix]. destruct (ascii_dec x x); [exact IH | congruence]. }
  destruct n; cbn [contains]; rewrite H; reflexivity.
Qed.

Lemma contains_trans (n a hay : string) :
  contains a hay = true -> contains n a = true -> contains n hay = true.
Proof.
  intros Ha Hn. induction hay as [|x hay IH].
  - cbn [contains] in Ha. rewrite orb_false_r in Ha.
    destruct (prefix_split _ _ Ha) as (rest & Hrest).
    rewrite Hrest. apply contains_append_l, Hn.
  - cbn [contains] in Ha. apply orb_true_iff in Ha as [Ha | Ha].
    + destruct (prefix_split _ _ Ha) as (rest & ->).
      apply contains_append_l, Hn.
    + cbn [contains]. rewrite (IH Ha). apply orb_true_r.
Qed.

(** ** What the release step reports *)

(** A signal that arrives while the monitor's handler is installed is
    turned into [SystemExit]. *)
Lemma deliver_armed call m sig w :
  handlers w sig = monitor_handle_signal ->
  deliver call m sig w
  = (Raise {| exc_type := SystemExit;
              exc_str := "Process terminated by signal " +:+ Signals_name sig;
              exc_chain := site_chain (raise_site w);
              exc_frames := site_frames (raise_site w) |},
     emit (E_print (nl +:+ "[TERMINATION_MONITOR] Signal received: "
                    +:+ Signals_name sig)) w).
Proof.
  intros H. unfold deliver, bind, get. rewrite H. reflexivity.
Qed.

(** A block that raises [e] under a monitor with a mailer: [e] is raised
    again after one alert that carries the status and the details of [e]. *)
Lemma release_after_raise mgr srv block w m w1 e w2 :
  termination_monitor.mailer mgr = Some srv ->
  termination_monitor.__enter__ mgr w = (Return m, w1) ->
  block m w1 = (Raise e, w2) ->
  exists w3 d,
    with_ mgr block w = (Raise e, w3) /\
    trace w3 = trace w2 ++ d /\
    sends d
    = [(default EmptyString (termination_monitor.recipient_email mgr),
        termination_monitor.alert_subject (status_of (Some e)),
        termination_monitor.alert_body (hostname w2) (status_of (Some e))
          (clock w2) (details_of (Some e)))].
Proof.
  intros Hmailer Henter Hblock.
  destruct (with_release mgr block w)
    as (m' & w1' & Henter' & Harmed & Hm & Hr & _ & _ & Hwith).
  rewrite Henter in Henter'. injection Henter' as <- <-.
  rewrite Hblock in Hwith.
  destruct (exit_spec m _ _ (Some e) w2 Harmed)
    as (w3 & d & Hexit & _ & _ & _ & Htrace & Hd).
  rewrite Hexit in Hwith. cbn [snd] in Hwith.
  rewrite Hm, Hmailer in Hd. destruct Hd as (d' & -> & Hd').
  eexists _, _. split; [exact Hwith|]. split; [exact Htrace|].
  cbn [sends exception_report app]. rewrite (sends_delivery _ Hd'), Hr.
  reflexivity.
Qed.

(** C6: under a monitor with a mailer, a block that raises
    [ValueError("x")] is followed by exactly one call to [send]; its
    subject contains "Crashed", its body contains the formatted traceback
    and so "ValueError" and "x"; and the same [ValueError] is raised again
    to the caller. *)
Theorem value_error_reported mgr srv block w m w1 e w2 :
  termination_monitor.mailer mgr = Some srv ->
  termination_monitor.__enter__ mgr w = (Return m, w1) ->
  block m w1 = (Raise e, w2) ->
  exc_type e = Exception ValueError ->
  exc_str e = "x" ->
  exists w3 d recipient subject body,
    with_ mgr block w = (Raise e, w3) /\
    trace w3 = trace w2 ++ d /\
    sends d = [(recipient, subject, body)] /\
    contains "Crashed" subject = true /\
    contains (format_exception e) body = true /\
    contains "ValueError" body = true /\
    contains "x" body = true.
Proof.
  intros Hmailer Henter Hblock Hty Hstr.
  destruct (release_after_raise _ _ _ _ _ _ _ _ Hmailer Henter Hblock)
    as (w3 & d & Hwith & Htrace & Hsends).
  assert (Hstatus : status_of (Some e) = "Crashed / Terminated")
    by (cbn [status_of]; rewrite Hty; reflexivity).
  assert (Hdetails : details_of (Some e) = format_exception e)
    by (cbn [details_of]; rewrite Hty; reflexivity).
  rewrite Hstatus, Hdetails in Hsends.
  assert (Hline : contains ("ValueError" +:+ ": " +:+ "x") (format_exception e) = true).
  { pose proof (format_exception_names e "x" EmptyString Hstr) as H.
    rewrite Hty in H. exact H. }
  eexists _, _, _, _, _. split; [exact Hwith|]. split; [exact Htrace|].
  split; [exact Hsends|].
  split; [unfold termination_monitor.alert_subject; apply contains_skip;
          reflexivity|].
  split; [apply alert_body_quotes, contains_refl|].
  split; apply alert_body_quotes.
  - apply (contains_trans _ _ _ Hline), contains_here.
  - apply (contains_trans _ _ _ Hline). do 2 apply contains_skip.
    apply contains_refl.
Qed.

(** [with Example.monitor: raise ValueError("x")] in [Example.world]. *)
Lemma value_error_reported_example :
  exists w3 d recipient subject body,
    with_ Example.monitor Example.failing_block Example.world
      = (Raise Example.value_error, w3) /\
    trace w3 = trace (snd (termination_monitor.__enter__ Example.monitor Example.world)) ++ d /\
    sends d = [(recipient, subject, body)] /\
    contains "Crashed" subject = true /\
    contains (format_exception Example.value_error) body = true /\
    contains "ValueError" body = true /\
    contains "x" body = true.
Proof.
  eapply (value_error_reported Example.monitor Example.server
            Example.failing_block Example.world).
  - reflexivity.
  - vm_compute. reflexivity.
  - vm_compute. reflexivity.
  - reflexivity.
  - reflexivity.
Defined.




(** C4, what the code does: SIGINT arriving in the block is turned into
    [SystemExit] by the monitor's handler, which replaced the interpreter's
    own; [__exit__] tests for [KeyboardInterrupt] alone, so the alert
    carries the status of a crash, "Crashed / Terminated", where a
    [KeyboardInterrupt] raised in the block is reported as "Interrupted by
    User (Ctrl+C)". *)
Theorem sigint_reported_as_crash call mgr w :
  exists m w1 e w3 d w3' d',
    termination_monitor.__enter__ mgr w = (Return m, w1) /\
    with_ mgr (fun m => deliver call m SIGINT) w = (Raise e, w3) /\
    exc_type e = SystemExit /\
    exc_str e = "Process terminated by signal SIGINT" /\
    trace w3 = trace w1 ++ E_print (nl +:+ "[TERMINATION_MONITOR] Signal received: SIGINT")
                 :: d /\
    map (fun sent => snd (fst sent)) (sends d)
    = (if degraded mgr then []
       else [termination_monitor.alert_subject "Crashed / Terminated"]) /\
    fst (with_ mgr (fun m => raise_ KeyboardInterrupt EmptyString) w)
    = Raise {| exc_type := KeyboardInterrupt; exc_str := EmptyString;
               exc_chain := site_chain (raise_site w1);
               exc_frames := site_frames (raise_site w1) |} /\
    trace w3' = trace w1 ++ d' /\
    w3' = snd (with_ mgr (fun m => raise_ KeyboardInterrupt EmptyString) w) /\
    map (fun sent => snd (fst sent)) (sends d')
    = (if degraded mgr then []
       else [termination_monitor.alert_subject "Interrupted by User (Ctrl+C)"]).
Proof.
  destruct (enter_spec mgr w)
    as (m & w1 & d0 & Henter & Harmed & Hmailer & _ & _ & Hint & _).
  assert (Hrelease : forall block e w2,
            block m w1 = (Raise e, w2) ->
            exists w3 d,
              with_ mgr block w = (Raise e, w3) /\
              trace w3 = trace w2 ++ d /\
              map (fun sent => snd (fst sent)) (sends d)
              = (if degraded mgr then []
                 else [termination_monitor.alert_subject (status_of (Some e))])).
  { intros block e w2 Hblock.
    unfold with_, bind. rewrite Henter, Hblock.
    destruct (exit_spec m _ _ (Some e) w2 Harmed)
      as (w3 & d & Hexit & _ & _ & _ & Htrace & Hd).
    rewrite Hexit. eexists _, _. split; [reflexivity|]. split; [exact Htrace|].
    unfold degraded. rewrite <- Hmailer.
    cbn [sends exception_report app].
    destruct (termination_monitor.mailer m) as [srv|].
    - destruct Hd as (d' & -> & Hd'). cbn [sends map fst snd].
      rewrite (sends_delivery _ Hd'). reflexivity.
    - subst d. reflexivity. }
  destruct (Hrelease (fun m => deliver call m SIGINT) _ _
              (deliver_armed call m SIGINT w1 Hint))
    as (w3 & d & Hwith & Htrace & Hsubject).
  destruct (Hrelease (fun m => raise_ KeyboardInterrupt EmptyString) _ _ eq_refl)
    as (w3' & d' & Hwith' & Htrace' & Hsubject').
  exists m, w1. eexists. exists w3, d, w3', d'.
  split; [exact Henter|]. split; [exact Hwith|].
  split; [reflexivity|]. split; [reflexivity|].
  split; [rewrite Htrace; cbn [trace emit]; rewrite <- app_assoc; reflexivity|].
  split; [exact Hsubject|].
  rewrite Hwith'. split; [reflexivity|]. split; [exact Htrace'|].
  split; [reflexivity | exact Hsubject'].
Qed.

(** A mailer behind an HTTP proxy, with no route to the server: the call
    fails and the socket factory stays replaced. *)
Lemma proxy_replaces_socket_factory_example :
  exists connect d,
    socket_socket (snd (SimpleEmailServer.send Example.proxied_server
                          "ops@example.org" "subject" "body" Example.offline_world))
    = socks_socksocket /\
    socks_defaultproxy (snd (SimpleEmailServer.send Example.proxied_server
                               "ops@example.org" "subject" "body" Example.offline_world))
    = Some {| proxy_type := PROXY_TYPE_HTTP;
              proxy_host := Some "proxy.example.org";
              proxy_port := 3128 |} /\
    trace (snd (SimpleEmailServer.send Example.proxied_server
                  "ops@example.org" "subject" "body" Example.offline_world))
    = trace Example.offline_world ++
      [E_send "ops@example.org" "subject" "body";
       E_print ("[TERMINATION_MONITOR] Connecting to SMTP server "
                +:+ "smtp.gmail.com" +:+ ":" +:+ str_int 587 +:+ "...");
       E_setdefaultproxy {| proxy_type := PROXY_TYPE_HTTP;
                            proxy_host := Some "proxy.example.org";
                            proxy_port := 3128 |};
       E_socket_socket socks_socksocket;
       E_smtp connect] ++ d /\
    (connect = SMTP_SSL "smtp.gmail.com" 587 \/
     connect = SMTP "smtp.gmail.com" 587) /\
    existsb is_socket_assignment d = false.
Proof.
  exact (proxy_replaces_socket_factory Example.proxied_server Example.proxy
           "ops@example.org" "subject" "body" Example.offline_world eq_refl).
Defined.

(** ** Acquisition *)

(** Entering the guard installs the monitor's handler for SIGTERM and
    SIGINT and for no other signal, stores the two handlers it replaced,
    and sends the start-up notification: once with a mailer, not at all
    without. *)
Theorem enter_installs_handlers mgr w :
  exists m w1 d,
    termination_monitor.__enter__ mgr w = (Return m, w1) /\
    handlers w1 SIGTERM = monitor_handle_signal /\
    handlers w1 SIGINT = monitor_handle_signal /\
    (forall s, s <> SIGTERM -> s <> SIGINT -> handlers w1 s = handlers w s) /\
    termination_monitor._original_sigterm m = Some (handlers w SIGTERM) /\
    termination_monitor._original_sigint m = Some (handlers w SIGINT) /\
    trace w1 = trace w ++ d /\
    map (fun sent => snd (fst sent)) (sends d)
    = (if degraded mgr then [] else [termination_monitor.started_subject]).
Proof.
  unfold termination_monitor.__enter__, degraded, bind, get, print, modify,
    signal_signal, ret; simpl.
  assert (Hothers : forall s,
            s <> SIGTERM -> s <> SIGINT ->
            (if decide (s = SIGINT) then monitor_handle_signal
             else if decide (s = SIGTERM) then monitor_handle_signal
                  else handlers w s) = handlers w s).
  { intros s H1 H2.
    destruct (decide (s = SIGINT)); [contradiction|].
    destruct (decide (s = SIGTERM)); [contradiction|]. reflexivity. }
  destruct (termination_monitor.mailer mgr) as [srv|] eqn:Hm; simpl.
  - use_send. destruct Hprocess as (_ & Hh & _).
    eexists _, _, _; split; [reflexivity|].
    rewrite Hh; simpl. split; [reflexivity|]. split; [reflexivity|].
    split; [exact Hothers|]. split; [reflexivity|]. split; [reflexivity|].
    split; [rewrite Htrace; simpl; rewrite <- ?app_assoc; simpl; reflexivity|].
    cbn [sends map fst snd]. rewrite (sends_delivery _ Hdelivery). reflexivity.
  - eexists _, _, _; split; [reflexivity|].
    split; [reflexivity|]. split; [reflexivity|].
    split; [exact Hothers|]. split; [reflexivity|]. split; [reflexivity|].
    split; [simpl; rewrite <- ?app_assoc; simpl; reflexivity|].
    reflexivity.
Qed.

(** Once the guard is entered, SIGTERM and SIGINT no longer end or
    interrupt the process where they arrive: each is logged and raised as
    [SystemExit] with a message that names the signal. *)
Theorem armed_signal_raises_SystemExit call mgr w :
  exists m w1,
    termination_monitor.__enter__ mgr w = (Return m, w1) /\
    deliver call m SIGTERM w1
    = (Raise {| exc_type := SystemExit;
                exc_str := "Process terminated by signal SIGTERM";
                exc_chain := site_chain (raise_site w1);
                exc_frames := site_frames (raise_site w1) |},
       emit (E_print (nl +:+ "[TERMINATION_MONITOR] Signal received: SIGTERM")) w1) /\
    deliver call m SIGINT w1
    = (Raise {| exc_type := SystemExit;
                exc_str := "Process terminated by signal SIGINT";
                exc_chain := site_chain (raise_site w1);
                exc_frames := site_frames (raise_site w1) |},
       emit (E_print (nl +:+ "[TERMINATION_MONITOR] Signal received: SIGINT")) w1).
Proof.
  destruct (enter_spec mgr w)
    as (m & w1 & d & Henter & _ & _ & _ & Hterm & Hint & _).
  exists m, w1. split; [exact Henter|].
  split; [exact (deliver_armed call m SIGTERM w1 Hterm)
         | exact (deliver_armed call m SIGINT w1 Hint)].
Qed.

(** ** The dialogue with the server *)


(** Without a proxy, [send] leaves the socket factory and the default proxy
    of the process as they were, and assigns neither. *)
Theorem send_without_proxy_keeps_sockets self recipient subject body w :
  SimpleEmailServer.proxy_info self = None ->
  exists r w' d,
    SimpleEmailServer.send self recipient subject body w = (r, w') /\
    socket_socket w' = socket_socket w /\
    socks_defaultproxy w' = socks_defaultproxy w /\
    trace w' = trace w ++ d /\
    existsb (fun e => match e with
                      | E_setdefaultproxy _ | E_socket_socket _ => true
                      | _ => false
                      end) d = false.
Proof.
  intros Hproxy. run_send. rewrite Hproxy.
  destruct (SimpleEmailServer.smtp_port self =? 465); simpl;
  split_network;
  (eexists _, _, _; split; [reflexivity|]; split; [reflexivity|];
   split; [reflexivity|]; split;
   [simpl; rewrite <- ?app_assoc; simpl; reflexivity | reflexivity]).
Qed.

(** The mailer of the example process has no proxy. *)
Lemma send_without_proxy_keeps_sockets_example :
  exists r w' d,
    SimpleEmailServer.send Example.server "ops@example.org" "subject" "body"
      Example.offline_world = (r, w') /\
    socket_socket w' = stock_socket /\
    socks_defaultproxy w' = None /\
    trace w' = trace Example.offline_world ++ d /\
    existsb (fun e => match e with
                      | E_setdefaultproxy _ | E_socket_socket _ => true
                      | _ => false
                      end) d = false.
Proof.
  exact (send_without_proxy_keeps_sockets Example.server "ops@example.org"
           "subject" "body" Example.offline_world eq_refl).
Defined.

(** ** Proxy settings *)

(** What [_parse_proxy] makes of a URL: it raises [ValueError] exactly when
    the port of the URL cannot be read; otherwise the type is ['http'] for
    the schemes http and https and ['socks5'] for every other scheme, the
    host is the URL's, and the port is the URL's, or 8080 where the URL
    names none or names 0. The port of a proxy is therefore never 0. *)
Theorem parse_proxy_result up url w :
  match SimpleEmailServer._parse_proxy up url w with
  | (Return info, w') =>
      w' = w /\
      (exists p, parsed_port (up url) = port_is p /\
         SimpleEmailServer.port_ info
         = match p with
           | Some n => if n =? 0 then 8080 else n
           | None => 8080
           end) /\
      SimpleEmailServer.port_ info <> 0 /\
      SimpleEmailServer.host_ info = parsed_hostname (up url) /\
      (SimpleEmailServer.type_ info = "http" \/
       SimpleEmailServer.type_ info = "socks5") /\
      (SimpleEmailServer.type_ info = "http" <->
       scheme (up url) = "http" \/ scheme (up url) = "https")
  | (Raise e, w') =>
      w' = w /\ exc_type e = Exception ValueError /\
      parsed_port (up url) = port_invalid (exc_str e)
  | (Killed _, _) => False
  end.
Proof.
  unfold SimpleEmailServer._parse_proxy, raise_, ret.
  destruct (parsed_port (up url)) as [p|message]; simpl; [|auto].
  split; [reflexivity|]. split; [|split; [|split; [reflexivity|]]].
  - exists p. split; [reflexivity|].
    destruct p as [n|]; simpl; [|reflexivity].
    destruct (n =? 0); reflexivity.
  - destruct p as [n|]; simpl; [|discriminate].
    destruct (n =? 0) eqn:Hn; simpl; [discriminate|].
    apply Z.eqb_neq, Hn.
  - destruct (bool_decide (scheme (up url) = "http")) eqn:H1;
      destruct (bool_decide (scheme (up url) = "https")) eqn:H2; simpl;
      try apply bool_decide_eq_true in H1;
      try apply bool_decide_eq_true in H2;
      try apply bool_decide_eq_false in H1;
      try apply bool_decide_eq_false in H2;
      (split; [auto|]); split; try discriminate; intuition congruence.
Qed.

(** The constructor of the mailer takes its proxy from [http_proxy] when
    that is a non-empty string, whatever [https_proxy] holds; from
    [https_proxy] when only that is non-empty; and has none, and cannot
    raise, when both are [None] or empty. *)
Theorem http_proxy_takes_precedence up host port sender password http https w :
  map_result SimpleEmailServer.proxy_info
    (fst (SimpleEmailServer.__init__ up host port sender password http https w))
  = (if truthy_str http then
       map_result Some
         (fst (SimpleEmailServer._parse_proxy up (default EmptyString http) w))
     else if truthy_str https then
       map_result Some
         (fst (SimpleEmailServer._parse_proxy up (default EmptyString https) w))
     else Return None) /\
  (truthy_str http = true ->
   forall https',
     map_result SimpleEmailServer.proxy_info
       (fst (SimpleEmailServer.__init__ up host port sender password http https' w))
     = map_result SimpleEmailServer.proxy_info
         (fst (SimpleEmailServer.__init__ up host port sender password http https w))).
Proof.
  assert (Hfirst : forall https0,
    map_result SimpleEmailServer.proxy_info
      (fst (SimpleEmailServer.__init__ up host port sender password http https0 w))
    = (if truthy_str http then
         map_result Some
           (fst (SimpleEmailServer._parse_proxy up (default EmptyString http) w))
       else if truthy_str https0 then
         map_result Some
           (fst (SimpleEmailServer._parse_proxy up (default EmptyString https0) w))
       else Return None)).
  { intros https0.
    unfold SimpleEmailServer.__init__, fmap_M, bind, ret.
    destruct (truthy_str http); [|destruct (truthy_str https0)]; simpl;
      try (destruct (SimpleEmailServer._parse_proxy up _ w) as [[info|e|s] w'];
           reflexivity);
      reflexivity. }
  split; [apply Hfirst|].
  intros Hhttp https'. rewrite !Hfirst, Hhttp. reflexivity.
Qed.

(** ** What the constructor hands to the mailer *)

Lemma truthy_default (v : option string) :
  truthy_str v = true -> Some (default EmptyString v) = v.
Proof. destruct v as [[|c s]|]; [discriminate | reflexivity | discriminate]. Qed.

(** A monitor the constructor returns was not entered yet; constructing it
    installs no handler, opens no connection and leaves the sockets alone.
    If it has a mailer, the mailer holds exactly the host, port, sender
    address, password and proxy URLs the monitor resolved, and the
    recipient, the sender address and the password are non-empty
    strings. *)
Theorem constructor_configures_mailer up kw w :
  match termination_monitor.__init__ up kw w with
  | (Return m, w') =>
      termination_monitor._original_sigint m = None /\
      termination_monitor._original_sigterm m = None /\
      handlers w' = handlers w /\
      socket_socket w' = socket_socket w /\
      socks_defaultproxy w' = socks_defaultproxy w /\
      (exists d, trace w' = trace w ++ d /\ existsb is_network d = false /\
                 existsb is_signal_change d = false) /\
      match termination_monitor.mailer m with
      | Some srv =>
          SimpleEmailServer.smtp_host srv = termination_monitor.smtp_host m /\
          SimpleEmailServer.smtp_port srv = termination_monitor.smtp_port m /\
          Some (SimpleEmailServer.sender_email srv) = termination_monitor.sender_email m /\
          Some (SimpleEmailServer.sender_password srv)
          = termination_monitor.sender_password m /\
          SimpleEmailServer.http_proxy srv = termination_monitor.http_proxy m /\
          SimpleEmailServer.https_proxy srv = termination_monitor.https_proxy m /\
          truthy_str (termination_monitor.recipient_email m) = true /\
          truthy_str (termination_monitor.sender_email m) = true /\
          truthy_str (termination_monitor.sender_password m) = true
      | None => True
      end
  | (Raise e, w') => w' = w
  | (Killed _, _) => False
  end.
Proof.
  unfold termination_monitor.__init__, SimpleEmailServer.__init__,
    SimpleEmailServer._parse_proxy, fmap_M, bind, getenv, get, int_, raise_,
    print, modify, ret.
  cbn beta iota zeta.
  assert (Hquiet : exists d : list Event,
            trace w = trace w ++ d /\ existsb is_network d = false /\
            existsb is_signal_change d = false)
    by (exists []; rewrite app_nil_r; auto).
  assert (Hwarned : exists d : list Event,
            trace w ++ [E_print termination_monitor.warning_line] = trace w ++ d /\
            existsb is_network d = false /\ existsb is_signal_change d = false)
    by (eexists; split; [reflexivity|]; auto).
  destruct (truthy_int (termination_monitor.kw_smtp_port kw)) eqn:Hport;
    [destruct (termination_monitor.kw_smtp_port kw) as [n|];
       [|discriminate Hport]
    |destruct (environ w !! "TERMINATION_MONITOR_SMTP_PORT") as [s|] eqn:Henv;
       [destruct (int_of_str s) as [n|] eqn:Hint; [|reflexivity]
       |] ];
    (simpl;
     remember (_ && _ && _) as complete eqn:Hcomplete;
     destruct complete; simpl; [|auto 15];
     symmetry in Hcomplete;
     apply andb_true_iff in Hcomplete as [Hcomplete Hrecipient];
     apply andb_true_iff in Hcomplete as [Hsender Hpassword];
     destruct (truthy_str (environ w !! "TERMINATION_MONITOR_HTTP_PROXY")) eqn:Hhttp;
       [|destruct (truthy_str (environ w !! "TERMINATION_MONITOR_HTTPS_PROXY")) eqn:Hhttps];
       simpl;
       try (destruct (parsed_port (up _)); simpl);
       auto 20 using truthy_default).
Qed.

(** ** Every way a block can end *)



(** ** A guard without a mailer *)

(** A degraded monitor stays off the network for the whole [with]
    statement: entering prints one line and installs the two handlers,
    leaving prints, restores, and ends on the line that says the alert is
    skipped; [send] is never called, no connection is opened, and the socket
    factory and the default proxy are not touched. The handlers are
    restored all the same. *)
Theorem degraded_guard_is_silent mgr block w :
  degraded mgr = true ->
  exists m w1,
    termination_monitor.__enter__ mgr w = (Return m, w1) /\
    trace w1 = trace w ++
      [E_print ("[TERMINATION_MONITOR] Monitoring started at " +:+ clock w +:+ "...");
       E_signal SIGTERM monitor_handle_signal;
       E_signal SIGINT monitor_handle_signal] /\
    socket_socket w1 = socket_socket w /\
    socks_defaultproxy w1 = socks_defaultproxy w /\
    match block m w1 with
    | (Killed s, w2) => with_ mgr block w = (Killed s, w2)
    | (_, w2) =>
        exists d,
          let w3 := snd (with_ mgr block w) in
          trace w3 = trace w2 ++ d /\
          existsb is_network d = false /\
          last d = Some (E_print "[TERMINATION_MONITOR] No email configuration. Skipping alert.") /\
          socket_socket w3 = socket_socket w2 /\
          socks_defaultproxy w3 = socks_defaultproxy w2 /\
          handlers w3 SIGTERM = handlers w SIGTERM /\
          handlers w3 SIGINT = handlers w SIGINT
    end.
Proof.
  unfold degraded. intros Hdegraded.
  destruct (termination_monitor.mailer mgr) as [srv|] eqn:Hmailer;
    [discriminate Hdegraded|].
  assert (Henter : exists m,
            termination_monitor.__enter__ mgr w
            = (Return m,
               set_handler SIGINT monitor_handle_signal
                 (emit (E_signal SIGINT monitor_handle_signal)
                    (set_handler SIGTERM monitor_handle_signal
                       (emit (E_signal SIGTERM monitor_handle_signal)
                          (emit (E_print ("[TERMINATION_MONITOR] Monitoring started at "
                                          +:+ clock w +:+ "..."))
                             w))))) /\
            termination_monitor.mailer m = None /\
            armed m (handlers w SIGTERM) (handlers w SIGINT)).
  { unfold termination_monitor.__enter__, bind, get, print, modify,
      signal_signal, ret; simpl. rewrite Hmailer.
    eexists. split; [reflexivity|]. split; [exact Hmailer|]. split; reflexivity. }
  destruct Henter as (m & Henter & Hm & Harmed).
  exists m. eexists. split; [exact Henter|].
  split; [simpl; rewrite <- ?app_assoc; reflexivity|].
  split; [reflexivity|]. split; [reflexivity|].
  assert (Hexit : forall exc w2,
            exists d,
              let w3 := snd (termination_monitor.__exit__ m exc w2) in
              fst (termination_monitor.__exit__ m exc w2) = Return false /\
              trace w3 = trace w2 ++ d /\
              existsb is_network d = false /\
              last d = Some (E_print "[TERMINATION_MONITOR] No email configuration. Skipping alert.") /\
              socket_socket w3 = socket_socket w2 /\
              socks_defaultproxy w3 = socks_defaultproxy w2 /\
              handlers w3 SIGTERM = handlers w SIGTERM /\
              handlers w3 SIGINT = handlers w SIGINT).
  { intros exc w2. destruct Harmed as [Hterm Hint].
    unfold termination_monitor.__exit__, bind, get, signal_signal_opt.
    rewrite Hterm, Hint.
    unfold signal_signal, termination_monitor._trigger_alert, bind, print,
      modify, get, ret; simpl. rewrite Hm.
    destruct exc as [e|]; simpl; [destruct (exc_type e); simpl|];
      (eexists; split; [reflexivity|]; split;
       [rewrite <- ?app_assoc; simpl; reflexivity|];
       repeat split; reflexivity). }
  unfold with_, bind. rewrite Henter.
  match goal with
  | |- context [block m ?w1] => destruct (block m w1) as [[[]|e|s] w2]
  end; [| |reflexivity].
  - destruct (Hexit None w2) as (d & Hret & H). cbn zeta in H.
    destruct (termination_monitor.__exit__ m None w2) as [r w3].
    cbn [fst snd] in *. subst r. exists d. exact H.
  - destruct (Hexit (Some e) w2) as (d & Hret & H). cbn zeta in H.
    destruct (termination_monitor.__exit__ m (Some e) w2) as [r w3].
    cbn [fst snd] in *. subst r. exists d. exact H.
Qed.

(** [Example.degraded_monitor] around a failing block. *)
Lemma degraded_guard_is_silent_example :
  Example.subjects
    (snd (with_ Example.degraded_monitor Example.failing_block Example.world)) = [] /\
  exists m w1,
    termination_monitor.__enter__ Example.degraded_monitor Example.world
      = (Return m, w1) /\
    trace w1 = trace Example.world ++
      [E_print ("[TERMINATION_MONITOR] Monitoring started at "
                +:+ clock Example.world +:+ "...");
       E_signal SIGTERM monitor_handle_signal;
       E_signal SIGINT monitor_handle_signal] /\
    socket_socket w1 = stock_socket /\
    socks_defaultproxy w1 = None.
Proof.
  split; [vm_compute; reflexivity|].
  destruct (degraded_guard_is_silent Example.degraded_monitor
              Example.failing_block Example.world eq_refl)
    as (m & w1 & Henter & Htrace & Hsock & Hproxy & _).
  exists m, w1. auto.
Defined.

(** ** Signals the guard does not intercept *)

(** Entering the guard leaves the handler of every other signal alone. *)
Lemma enter_other_signals mgr w :
  exists m w1,
    termination_monitor.__enter__ mgr w = (Return m, w1) /\
    forall s, s <> SIGTERM -> s <> SIGINT -> handlers w1 s = handlers w s.
Proof.
  unfold termination_monitor.__enter__, bind, get, print, modify,
    signal_signal, ret; simpl.
  assert (Hothers : forall s,
            s <> SIGTERM -> s <> SIGINT ->
            (if decide (s = SIGINT) then monitor_handle_signal
             else if decide (s = SIGTERM) then monitor_handle_signal
                  else handlers w s) = handlers w s).
  { intros s H1 H2.
    destruct (decide (s = SIGINT)); [contradiction|].
    destruct (decide (s = SIGTERM)); [contradiction|]. reflexivity. }
  destruct (termination_monitor.mailer mgr) as [srv|]; simpl.
  - use_send. destruct Hprocess as (_ & Hh & _).
    eexists _, _. split; [reflexivity|]. rewrite Hh. exact Hothers.
  - eexists _, _. split; [reflexivity|]. exact Hothers.
Qed.

(** The guard protects against SIGTERM and SIGINT only. A signal of
    another kind whose handler is the default one kills the process where
    it arrives in the block: [__exit__] does not run, so no alert is sent
    and nothing is printed after the lines of [__enter__]. *)
Theorem unintercepted_signal_kills call mgr sig w :
  sig <> SIGTERM ->
  sig <> SIGINT ->
  handlers w sig = SIG_DFL ->
  exists m w1,
    termination_monitor.__enter__ mgr w = (Return m, w1) /\
    with_ mgr (fun m => deliver call m sig) w = (Killed sig, w1).
Proof.
  intros Hterm Hint Hdefault.
  destruct (enter_other_signals mgr w) as (m & w1 & Henter & Hothers).
  exists m, w1. split; [exact Henter|].
  unfold with_, bind at 1. rewrite Henter.
  unfold deliver, bind, get, kill.
  rewrite (Hothers sig Hterm Hint), Hdefault. reflexivity.
Qed.

(** The terminal of the example process is closed while the block runs. *)
Lemma unintercepted_signal_kills_example :
  exists m w1,
    termination_monitor.__enter__ Example.monitor Example.world = (Return m, w1) /\
    with_ Example.monitor (fun m => deliver Example.call m SIGHUP) Example.world
    = (Killed SIGHUP, w1).
Proof.
  apply (unintercepted_signal_kills Example.call Example.monitor SIGHUP
           Example.world); [discriminate | discriminate | reflexivity].
Defined.

(** ** Guards inside guards *)



(** ** Leaving without entering *)

(** [__exit__] on a monitor that was not entered fails at its first step:
    it raises [TypeError] before anything is restored, printed or sent, and
    the world is as it was. *)
Theorem exit_before_enter_raises m exc w :
  termination_monitor._original_sigterm m = None ->
  exists e,
    termination_monitor.__exit__ m exc w = (Raise e, w) /\
    exc_type e = Exception TypeError.
Proof.
  intros Hnone.
  unfold termination_monitor.__exit__, bind, get, signal_signal_opt.
  rewrite Hnone. unfold raise_. eexists. split; reflexivity.
Qed.

(** The monitor of the example process, as the constructor returns it. *)
Lemma exit_before_enter_raises_example :
  exists e,
    termination_monitor.__exit__ Example.monitor None Example.world
    = (Raise e, Example.world) /\
    exc_type e = Exception TypeError.
Proof.
  exact (exit_before_enter_raises Example.monitor None Example.world eq_refl).
Defined.


(** ** The port in the environment *)



(** A port given as an argument (other than 0) keeps [int] away from the
    environment: whatever [TERMINATION_MONITOR_SMTP_PORT] holds, the
    constructor gives the result it gives without it. *)
Theorem explicit_port_ignores_environment up kw w s :
  truthy_int (termination_monitor.kw_smtp_port kw) = true ->
  fst (termination_monitor.__init__ up kw
         (set_environ (<["TERMINATION_MONITOR_SMTP_PORT" := s]> (environ w)) w))
  = fst (termination_monitor.__init__ up kw
           (set_environ (delete "TERMINATION_MONITOR_SMTP_PORT" (environ w)) w)).
Proof.
  intros Hkw.
  unfold termination_monitor.__init__, SimpleEmailServer.__init__,
    SimpleEmailServer._parse_proxy, fmap_M, bind, getenv, get, int_, raise_,
    print, modify, ret.
  cbn beta iota zeta. rewrite Hkw.
  cbn beta iota zeta. cbn [environ set_environ].
  rewrite !lookup_insert_ne by discriminate.
  rewrite !lookup_delete_ne by discriminate.
  remember (_ && _ && _) as complete eqn:Hcomplete.
  destruct complete; cbn beta iota; [|reflexivity].
  destruct (truthy_str (environ w !! "TERMINATION_MONITOR_HTTP_PROXY"));
    [|destruct (truthy_str (environ w !! "TERMINATION_MONITOR_HTTPS_PROXY"))];
    cbn beta iota;
    try (destruct (parsed_port (up _)); cbn beta iota);
    reflexivity.
Qed.

(** The example process with a port variable that is no number. *)
Lemma explicit_port_ignores_environment_example :
  fst (termination_monitor.__init__ Example.urlparse
         Example.kw_ssl
         (set_environ (<["TERMINATION_MONITOR_SMTP_PORT" := "smtp"]>
                         (environ Example.world)) Example.world))
  = fst (termination_monitor.__init__ Example.urlparse
           Example.kw_ssl
           (set_environ (delete "TERMINATION_MONITOR_SMTP_PORT"
                           (environ Example.world)) Example.world)).
Proof.
  exact (explicit_port_ignores_environment Example.urlparse Example.kw_ssl
           Example.world "smtp" eq_refl).
Defined.
